(** * milvus/client/abstract.py: value objects and the top-k result set

    A shallow embedding of the classes [Range], [TopKQueryResult] and
    [IndexParam] of [milvus/client/abstract.py], followed by the properties
    the specification states about them.

    Python integers are [Z], Python lists are [list], Python strings are
    [string]; a call that may raise returns in the exception monad [exc];
    a method of an object is a function of the receiver [self]. *)

From stdpp Require Import base list strings pretty.
From Stdlib Require Import ZArith Lia.

Open Scope Z_scope.

(** ** Exceptions and the exception monad *)

Inductive exn : Type :=
| ParamError (msg : string)   (* milvus.client.exceptions.ParamError *)
| IndexError                  (* list index out of range *)
| AttributeError              (* attribute missing on the raw source *)
| ValueError                  (* enum lookup by a value that is no member *)
| Timeout.                    (* the raw future's deadline elapsed *)

Inductive exc (A : Type) : Type :=
| Return (a : A)
| Raise (e : exn).
Arguments Return {A} a.
Arguments Raise {A} e.

#[global] Instance exc_ret : MRet exc := fun A a => Return a.
#[global] Instance exc_fmap : FMap exc := fun A B f m =>
  match m with
  | Return a => Return (f a)
  | Raise e => Raise e
  end.
#[global] Instance exc_bind : MBind exc := fun A B k m =>
  match m with
  | Return a => k a
  | Raise e => Raise e
  end.

(** A [for] loop whose body may raise: the accumulator is threaded from
    left to right and the first exception leaves the loop. *)
Fixpoint for_each {A S : Type} (body : S -> A -> exc S) (s : S) (l : list A)
  : exc S :=
  match l with
  | [] => Return s
  | x :: l' => s' ← body s x; for_each body s' l'
  end.

(** ** Python built-ins used by the module *)

Definition len {A : Type} (l : list A) : Z := Z.of_nat (length l).

(** [l[i]] for an integer [i]: a negative index counts from the end, and an
    index outside [-len l, len l) raises [IndexError]. *)
Definition list_getitem {A : Type} (l : list A) (i : Z) : exc A :=
  let j := if bool_decide (i < 0) then i + len l else i in
  if bool_decide (0 <= j < len l) then
    match l !! Z.to_nat j with
    | Some x => Return x
    | None => Raise IndexError
    end
  else Raise IndexError.

(** [l[:stop]]: slicing clamps, it never raises. *)
Definition list_getslice {A : Type} (l : list A) (stop : Z) : list A :=
  let j := if bool_decide (stop < 0) then Z.max 0 (stop + len l)
           else Z.min stop (len l) in
  take (Z.to_nat j) l.

(** [range(n)] *)
Definition range (n : Z) : list Z := seqZ 0 n.

(** [sep.join(l)] *)
Definition join (sep : string) (l : list string) : string :=
  String.concat sep l.

(** The line feed written [\n] in the source's string literals. *)
Definition nl : string := String (Ascii.ascii_of_nat 10) EmptyString.

(** ** The raw search response

    The result set reads two attributes of the raw response:
    [raw.topk_query_result], the per-query sub-responses, and, of each of
    them, [query_result_arrays], the ranked matches. A match has an [id]
    and a [distance]; the distance is a float, kept abstract here. *)

Module QueryResult.
Record t (Dist : Type) : Type := { id : Z; distance : Dist }.
Arguments id {Dist} _.
Arguments distance {Dist} _.
End QueryResult.

Record SubResponse (Dist : Type) : Type :=
  { query_result_arrays : list (QueryResult.t Dist) }.
Arguments query_result_arrays {Dist} _.

Record Response (Dist : Type) : Type :=
  { topk_query_result : list (SubResponse Dist) }.
Arguments topk_query_result {Dist} _.

(** The raw future of an asynchronous search: it completes [ready_after]
    seconds from now with [outcome], and has completed already when
    [ready_after] is not positive; [Future_result f timeout] is the call
    [f.result(timeout=timeout)], which returns at once when the future has
    completed and waits at most [timeout] seconds otherwise, a negative
    [timeout] being no wait at all. *)
Record Future (Dist : Type) : Type :=
  { ready_after : Z; outcome : Response Dist }.
Arguments ready_after {Dist} _.
Arguments outcome {Dist} _.

Definition Future_result {Dist : Type} (f : Future Dist) (timeout : Z)
  : exc (Response Dist) :=
  if bool_decide (ready_after f <= Z.max 0 timeout) then Return (outcome f)
  else Raise Timeout.

(** [raw_source] is duck-typed: a response or a future. *)
Inductive raw_source (Dist : Type) : Type :=
| RawResponse (response : Response Dist)
| RawFuture (future : Future Dist).
Arguments RawResponse {Dist} response.
Arguments RawFuture {Dist} future.

(** [raw.topk_query_result] *)
Definition get_topk_query_result {Dist : Type} (raw : raw_source Dist)
  : exc (list (SubResponse Dist)) :=
  match raw with
  | RawResponse response => Return (topk_query_result response)
  | RawFuture _ => Raise AttributeError
  end.

(** [raw.result(timeout=timeout)] *)
Definition raw_result {Dist : Type} (raw : raw_source Dist) (timeout : Z)
  : exc (Response Dist) :=
  match raw with
  | RawResponse _ => Raise AttributeError
  | RawFuture future => Future_result future timeout
  end.

(** ** class TopKQueryResult *)

Module TopKQueryResult.

Record t (Dist : Type) : Type := mk
  { _raw : raw_source Dist;
    _async : bool;
    _lazy : bool;
    _array : list (list (QueryResult.t Dist)) }.
Arguments mk {Dist} _ _ _ _.
Arguments _raw {Dist} _.
Arguments _async {Dist} _.
Arguments _lazy {Dist} _.
Arguments _array {Dist} _.

(** The delivery mode the two flags stand for. *)
Inductive DeliveryMode : Type := Eager | Async | Lazy.

Definition delivery_mode {Dist : Type} (self : t Dist) : DeliveryMode :=
  if _async self then Async else if _lazy self then Lazy else Eager.

Section Methods.
Context {Dist : Type}.

Local Abbreviation Row := (list (QueryResult.t Dist)).

(** [_create_array]: the two nested statements of the loop body are an
    [extend] of a fresh list and an [append] to [array]. *)
Definition _create_array (raw : raw_source Dist) : exc (list Row) :=
  subs ← get_topk_query_result raw;
  Return (foldl (fun array topk_result =>
                   let topk_result_list :=
                     [] ++ query_result_arrays topk_result in
                   array ++ [topk_result_list])
                [] subs).

(** [__init__(raw_source, async_=..., lazy_=...)]; both flags default
    to [False]. *)
Definition __init__ (raw_source : raw_source Dist) (async_ lazy_ : bool)
  : exc (t Dist) :=
  array ← (if negb (async_ || lazy_) then _create_array raw_source
           else Return []);
  Return (mk raw_source async_ lazy_ array).

Definition shape (self : t Dist) : exc (Z * Z) :=
  let row := len (_array self) in
  column ← (if bool_decide (row = 0) then Return 0
            else first ← list_getitem (_array self) 0; Return (len first));
  Return (row, column).

Definition raw (self : t Dist) : raw_source Dist := _raw self.

Definition result (self : t Dist) (timeout : Z) : exc (t Dist) :=
  if _async self then
    response ← raw_result (_raw self) timeout;
    __init__ (RawResponse response) false (_lazy self)
  else Return self.

(** [__getitem__] with an integer, and with the slice [:stop]. *)
Definition __getitem__ (self : t Dist) (item : Z) : exc Row :=
  list_getitem (_array self) item.

Definition __getitem__slice (self : t Dist) (stop : Z) : list Row :=
  list_getslice (_array self) stop.

(** [__iter__]: the rows the iterator yields, in order. *)
Definition __iter__ (self : t Dist) : list Row := _array self.

Definition __len__ (self : t Dist) : Z := len (_array self).

(** [str_dist] is what [format] prints for a distance. *)
Variable str_dist : Dist -> string.

Definition lam (x : QueryResult.t Dist) : string :=
  "(id:" +:+ pretty (QueryResult.id x) +:+ ", distance:"
    +:+ str_dist (QueryResult.distance x) +:+ ")".

Definition spaces : string :=
  "        ......" +:+ nl +:+ "        ......".

Definition __repr__ (self : t Dist) : exc string :=
  if bool_decide (__len__ self > 5) then
    middle ← for_each
      (fun middle topk =>
         let middle :=
           middle +:+ " [ "
             +:+ join ("," +:+ nl +:+ "   ") (lam <$> list_getslice topk 3) in
         let middle := middle +:+ "," +:+ nl +:+ "   ..." in
         last_ ← list_getitem topk (-1);
         Return (middle +:+ nl +:+ "   " +:+ lam last_ +:+ " ]" +:+ nl +:+ nl))
      "" (__getitem__slice self 3);
    let ahead := "[" +:+ nl +:+ middle +:+ spaces +:+ nl +:+ "]" in
    Return ahead
  else
    str_out_list ← for_each
      (fun str_out_list i =>
         row ← __getitem__ self i;
         Return (str_out_list ++
                 ["[" +:+ nl +:+ join ("," +:+ nl) (lam <$> row) +:+ nl +:+ "]"]))
      [] (range (__len__ self));
    Return ("[" +:+ nl +:+ join ("," +:+ nl) str_out_list +:+ nl +:+ "]").

(** *** The rendering, in the specification's words

    Every row in full, each match formatted by [lam]; and a row cut to its
    first three matches, an omission marker and its last match. [__repr__]
    is compared with these below. *)
Definition render_row (row : Row) : string :=
  "[" +:+ nl +:+ join ("," +:+ nl) (lam <$> row) +:+ nl +:+ "]".

Definition render_all (rows : list Row) : string :=
  "[" +:+ nl +:+ join ("," +:+ nl) (render_row <$> rows) +:+ nl +:+ "]".

Definition render_row_bounded (row : Row) (last_ : QueryResult.t Dist)
  : string :=
  " [ " +:+ join ("," +:+ nl +:+ "   ") (lam <$> take 3 row)
    +:+ "," +:+ nl +:+ "   ..."
    +:+ nl +:+ "   " +:+ lam last_ +:+ " ]" +:+ nl +:+ nl.

(** *** Calls on an object

    No method assigns to an attribute of [self]; [invoke] makes that
    explicit: it returns the receiver as the call leaves it, next to
    what the call returns or raises. *)
Inductive call : Type :=
| CallShape
| CallRaw
| CallResult (timeout : Z)
| CallGetitem (item : Z)
| CallIter
| CallLen
| CallRepr.

Inductive value : Type :=
| VShape (s : Z * Z)
| VRaw (r : raw_source Dist)
| VObject (o : t Dist)
| VRow (row : Row)
| VRows (rows : list Row)
| VInt (n : Z)
| VStr (s : string).

Definition invoke (self : t Dist) (c : call) : t Dist * exc value :=
  (self,
   match c with
   | CallShape => VShape <$> shape self
   | CallRaw => Return (VRaw (raw self))
   | CallResult timeout => VObject <$> result self timeout
   | CallGetitem item => VRow <$> __getitem__ self item
   | CallIter => Return (VRows (__iter__ self))
   | CallLen => Return (VInt (__len__ self))
   | CallRepr => VStr <$> __repr__ self
   end).

(** A sequence of calls on one object, with what each returned. *)
Fixpoint run (self : t Dist) (cs : list call) : t Dist * list (exc value) :=
  match cs with
  | [] => (self, [])
  | c :: cs' =>
      let '(self', v) := invoke self c in
      let '(self'', vs) := run self' cs' in
      (self'', v :: vs)
  end.

End Methods.

End TopKQueryResult.

(** ** class Range *)

Module Range.

(** The canonical date the two arguments are normalized to. *)
Record date : Type := { year : Z; month : Z; day : Z }.

Definition date_lt (a b : date) : Prop :=
  year a < year b \/
  (year a = year b /\
   (month a < month b \/ (month a = month b /\ day a < day b))).

Definition date_le (a b : date) : Prop := a = b \/ date_lt a b.

(** Modelled from the spec: [is_legal_date_range] of [milvus/client/utils.py]
    is not among the sources. The specification gives its contract, "start_date
    ≤ end_date; violated ordering fails construction", and the error message
    of [Range.__init__] reads "smaller than or equal to": the test is the
    calendar order on normalized dates, year first, then month, then day. *)
Definition is_legal_date_range (start_date end_date : date) : bool :=
  match year start_date ?= year end_date with
  | Lt => true
  | Gt => false
  | Eq =>
      match month start_date ?= month end_date with
      | Lt => true
      | Gt => false
      | Eq => bool_decide (day start_date <= day end_date)
      end
  end.

Record t : Type := mk { start_date : date; end_date : date }.

Section Init.

(** [parser_range_date] of [milvus/client/utils.py] is not among the
    sources either: it normalizes a string, a date or a datetime to a
    [date], or raises. It is a parameter of the constructor here; the
    constructor's argument type [DateInput] is whatever it accepts. *)
Context {DateInput : Type}.
Variable parser_range_date : DateInput -> exc date.

Definition __init__ (start_date end_date : DateInput) : exc t :=
  start_date ← parser_range_date start_date;
  end_date ← parser_range_date end_date;
  if is_legal_date_range start_date end_date then
    Return (mk start_date end_date)
  else
    Raise (ParamError
             "The start-date should be smaller than or equal to end-date!").

End Init.

End Range.

(** ** class IndexParam *)

(** Modelled from the spec: the enumeration [IndexType] of
    [milvus/client/types.py] is not among the sources. The specification
    lists its members, "Flat | IVFFlat | IVF_SQ8 | MIX_NSG" and the sentinel
    "invalid" value; the docstring of [IndexParam] numbers them
    "0-invalid, 1-flat, 2-ivflat, 3-IVF_SQ8, 4-MIX_NSG". *)
Module IndexType.

Inductive t : Type := INVALID | FLAT | IVFLAT | IVF_SQ8 | MIX_NSG.

#[global] Instance eq_dec : EqDecision t.
Proof. solve_decision. Defined.

Definition value (v : t) : Z :=
  match v with
  | INVALID => 0
  | FLAT => 1
  | IVFLAT => 2
  | IVF_SQ8 => 3
  | MIX_NSG => 4
  end.

(** The members' names, as the docstring spells them. *)
Definition name (v : t) : string :=
  match v with
  | INVALID => "INVALID"
  | FLAT => "FLAT"
  | IVFLAT => "IVFLAT"
  | IVF_SQ8 => "IVF_SQ8"
  | MIX_NSG => "MIX_NSG"
  end.

(** [IndexType(n)]: the member whose value is [n]; an enumeration raises
    [ValueError] when there is none. *)
Definition of_value (n : Z) : exc t :=
  match n with
  | 0 => Return INVALID
  | 1 => Return FLAT
  | 2 => Return IVFLAT
  | 3 => Return IVF_SQ8
  | 4 => Return MIX_NSG
  | _ => Raise ValueError
  end.

End IndexType.

(** The objects a caller passes to [IndexParam]: the constructor tells them
    apart with [is None] and [isinstance]. *)
Inductive pyobj : Type :=
| PyNone
| PyStr (s : string)
| PyInt (n : Z)
| PyIndexType (v : IndexType.t).

(** [str(o)]. What [str] prints for a member of IndexType is decided by
    [milvus/client/types.py], which is not among the sources, and the
    specification does not say it: it is the parameter [str_index_type]. *)
Definition str (str_index_type : IndexType.t -> string) (o : pyobj)
  : string :=
  match o with
  | PyNone => "None"
  | PyStr s => s
  | PyInt n => pretty n
  | PyIndexType v => str_index_type v
  end.

Module IndexParam.

Record t : Type := mk
  { _table_name : string;
    _index_type : IndexType.t;
    _nlist : pyobj }.

Section Init.

(** [str_index_type] is the parameter of [str]. *)
Variable str_index_type : IndexType.t -> string.

Definition __init__ (table_name index_type nlist : pyobj) : exc t :=
  match table_name with
  | PyNone => Raise (ParamError "Table name can't be None")
  | _ =>
      let table_name :=
        match table_name with
        | PyStr s => s                (* isinstance(table_name, str) *)
        | _ => str str_index_type table_name
        end in
      index_type ← match index_type with
                   | PyInt n => PyIndexType <$> IndexType.of_value n
                   | _ => Return index_type
                   end;
      match index_type with
      | PyIndexType v =>
          if bool_decide (v = IndexType.INVALID) then
            Raise (ParamError
              "Illegal index_type, should be IndexType but not IndexType.INVALID")
          else Return (mk table_name v nlist)
      | _ =>
          Raise (ParamError
            "Illegal index_type, should be IndexType but not IndexType.INVALID")
      end
  end.

End Init.

End IndexParam.

(** ** Sample data

    The response of the specification's example: two queries, the first
    with the matches (id 1, distance 0.1) and (id 2, distance 0.5), the
    second with (id 3, distance 0.2). In the samples a distance is given by
    the text [format] prints for it. *)

Module Sample.

Definition m (i : Z) (d : string) : QueryResult.t string :=
  {| QueryResult.id := i; QueryResult.distance := d |}.

Definition response : Response string :=
  {| topk_query_result :=
       [ {| query_result_arrays := [m 1 "0.1"; m 2 "0.5"] |};
         {| query_result_arrays := [m 3 "0.2"] |} ] |}.

Definition future : Future string :=
  {| ready_after := 2; outcome := response |}.

(** Six queries against an empty table: no query has a match. *)
Definition no_match : Response string :=
  {| topk_query_result := replicate 6 {| query_result_arrays := [] |} |}.

(** Six queries with 4, 1, 2, 0, 0 and 0 matches. *)
Definition six : Response string :=
  {| topk_query_result :=
       [ {| query_result_arrays :=
              [m 1 "0.1"; m 2 "0.2"; m 3 "0.3"; m 4 "0.4"] |};
         {| query_result_arrays := [m 5 "0.5"] |};
         {| query_result_arrays := [m 6 "0.6"; m 7 "0.7"] |};
         {| query_result_arrays := [] |};
         {| query_result_arrays := [] |};
         {| query_result_arrays := [] |} ] |}.

Definition eager : TopKQueryResult.t string :=
  TopKQueryResult.mk (RawResponse response) false false
    [[m 1 "0.1"; m 2 "0.5"]; [m 3 "0.2"]].

Definition async : TopKQueryResult.t string :=
  TopKQueryResult.mk (RawFuture future) true false [].

Definition async_lazy : TopKQueryResult.t string :=
  TopKQueryResult.mk (RawFuture future) true true [].

(** A parser of dates for the samples: a date is passed as it is. *)
Definition parser_range_date (d : Range.date) : exc Range.date := Return d.

Definition july_1 : Range.date :=
  {| Range.year := 2019; Range.month := 7; Range.day := 1 |}.
Definition july_2 : Range.date :=
  {| Range.year := 2019; Range.month := 7; Range.day := 2 |}.

End Sample.

(** * Properties *)

Import TopKQueryResult.

(** ** The specification's example, evaluated *)

Example sample_init :
  __init__ (RawResponse Sample.response) false false = Return Sample.eager.
Proof. reflexivity. Qed.

Example sample_shape : shape Sample.eager = Return (2, 2).
Proof. reflexivity. Qed.

Example sample_getitem_0 :
  __getitem__ Sample.eager 0 = Return [Sample.m 1 "0.1"; Sample.m 2 "0.5"].
Proof. reflexivity. Qed.

Example sample_getitem_1 :
  __getitem__ Sample.eager 1 = Return [Sample.m 3 "0.2"].
Proof. reflexivity. Qed.

Example sample_repr :
  __repr__ id Sample.eager
  = Return ("[" +:+ nl
              +:+ "[" +:+ nl
              +:+ "(id:1, distance:0.1)," +:+ nl
              +:+ "(id:2, distance:0.5)" +:+ nl
              +:+ "]," +:+ nl
              +:+ "[" +:+ nl
              +:+ "(id:3, distance:0.2)" +:+ nl
              +:+ "]" +:+ nl
              +:+ "]").
Proof. vm_compute. reflexivity. Qed.

Example sample_repr_six :
  exists self,
    __init__ (RawResponse Sample.six) false false = Return self /\
    __repr__ id self
    = Return ("[" +:+ nl
                +:+ " [ (id:1, distance:0.1)," +:+ nl
                +:+ "   (id:2, distance:0.2)," +:+ nl
                +:+ "   (id:3, distance:0.3)," +:+ nl
                +:+ "   ..." +:+ nl
                +:+ "   (id:4, distance:0.4) ]" +:+ nl +:+ nl
                +:+ " [ (id:5, distance:0.5)," +:+ nl
                +:+ "   ..." +:+ nl
                +:+ "   (id:5, distance:0.5) ]" +:+ nl +:+ nl
                +:+ " [ (id:6, distance:0.6)," +:+ nl
                +:+ "   (id:7, distance:0.7)," +:+ nl
                +:+ "   ..." +:+ nl
                +:+ "   (id:7, distance:0.7) ]" +:+ nl +:+ nl
                +:+ "        ......" +:+ nl
                +:+ "        ......" +:+ nl
                +:+ "]").
Proof. eexists. split; [reflexivity|]. vm_compute. reflexivity. Qed.

(** ** Python lists *)

Section ListFacts.
Context {A : Type}.
Implicit Types (l : list A) (i k : Z).

Lemma len_nonneg l : 0 <= len l.
Proof. unfold len. lia. Qed.

Lemma list_getitem_nonneg l i x :
  0 <= i -> l !! Z.to_nat i = Some x -> list_getitem l i = Return x.
Proof.
  intros Hi Hx. unfold list_getitem.
  assert (i < len l).
  { apply lookup_lt_Some in Hx. unfold len. lia. }
  rewrite (bool_decide_eq_false_2 (i < 0)) by lia.
  rewrite bool_decide_eq_true_2 by lia.
  by rewrite Hx.
Qed.

Lemma list_getitem_in_range l i :
  0 <= i < len l -> exists x, l !! Z.to_nat i = Some x /\ list_getitem l i = Return x.
Proof.
  intros Hi.
  destruct (lookup_lt_is_Some_2 l (Z.to_nat i)) as [x Hx].
  { unfold len in Hi. lia. }
  exists x. split; [done|]. apply list_getitem_nonneg; [lia|done].
Qed.

Lemma list_getitem_too_large l i :
  len l <= i -> list_getitem l i = Raise IndexError.
Proof.
  intros Hi. pose proof (len_nonneg l). unfold list_getitem.
  rewrite (bool_decide_eq_false_2 (i < 0)) by lia.
  by rewrite bool_decide_eq_false_2 by lia.
Qed.

Lemma list_getitem_negative l k :
  1 <= k <= len l ->
  exists x, l !! Z.to_nat (len l - k) = Some x /\ list_getitem l (- k) = Return x.
Proof.
  intros Hk.
  destruct (lookup_lt_is_Some_2 l (Z.to_nat (len l - k))) as [x Hx].
  { unfold len in *. lia. }
  exists x. split; [done|]. unfold list_getitem.
  rewrite (bool_decide_eq_true_2 (- k < 0)) by lia.
  rewrite bool_decide_eq_true_2 by lia.
  replace (- k + len l) with (len l - k) by lia.
  by rewrite Hx.
Qed.

Lemma list_getitem_too_small l k :
  len l < k -> list_getitem l (- k) = Raise IndexError.
Proof.
  intros Hk. pose proof (len_nonneg l). unfold list_getitem.
  rewrite (bool_decide_eq_true_2 (- k < 0)) by lia.
  by rewrite bool_decide_eq_false_2 by lia.
Qed.

Lemma list_getitem_nil i : list_getitem (@nil A) i = Raise IndexError.
Proof.
  destruct (decide (0 <= i)) as [Hi|Hi].
  - apply list_getitem_too_large. unfold len. simpl. lia.
  - replace i with (- - i) by lia.
    apply list_getitem_too_small. unfold len. simpl. lia.
Qed.

Lemma list_getslice_nonneg l i :
  0 <= i -> list_getslice l i = take (Z.to_nat i) l.
Proof.
  intros Hi. unfold list_getslice.
  rewrite bool_decide_eq_false_2 by lia.
  destruct (decide (i <= len l)) as [Hle|Hgt].
  - by rewrite Z.min_l by done.
  - rewrite Z.min_r by lia. unfold len in *.
    rewrite Nat2Z.id. by rewrite !take_ge by lia.
Qed.

End ListFacts.

(** ** Eager materialization *)

Section Materialization.
Context {Dist : Type}.
Implicit Types (response : Response Dist) (self : TopKQueryResult.t Dist).

(** The loop of [_create_array], started from any [array]. *)
Lemma create_array_loop (subs : list (SubResponse Dist)) array :
  foldl (fun array topk_result =>
           let topk_result_list := [] ++ query_result_arrays topk_result in
           array ++ [topk_result_list]) array subs
  = array ++ (query_result_arrays <$> subs).
Proof.
  revert array. induction subs as [|sub subs IH]; intros array; simpl.
  - by rewrite app_nil_r.
  - rewrite IH. by rewrite <- app_assoc.
Qed.

Lemma create_array_response response :
  _create_array (RawResponse response)
  = Return (query_result_arrays <$> topk_query_result response).
Proof.
  unfold _create_array. simpl. by rewrite create_array_loop.
Qed.

Lemma init_eager response :
  __init__ (RawResponse response) false false
  = Return (mk (RawResponse response) false false
              (query_result_arrays <$> topk_query_result response)).
Proof.
  unfold __init__. simpl negb. cbv iota.
  by rewrite create_array_response.
Qed.

Lemma shape_total self :
  shape self
  = Return (len (_array self),
            match _array self with
            | [] => 0
            | first :: _ => len first
            end).
Proof.
  unfold shape. destruct (_array self) as [|first rows] eqn:E.
  - reflexivity.
  - rewrite bool_decide_eq_false_2 by (unfold len; simpl; lia).
    reflexivity.
Qed.

(** C1. The result set materialized eagerly from a raw response with N
    sub-responses, the i-th holding k_i matches, has shape (N, k_0), the
    column count being that of the first row alone, and length N; a result
    set without rows has shape (0, 0). *)
Theorem C1_shape_and_len :
  forall response,
    (exists self,
        __init__ (RawResponse response) false false = Return self /\
        shape self
        = Return (len (topk_query_result response),
                  match topk_query_result response with
                  | [] => 0
                  | first :: _ => len (query_result_arrays first)
                  end) /\
        __len__ self = len (topk_query_result response)) /\
    (forall (raw : raw_source Dist) async_ lazy_,
        shape (mk raw async_ lazy_ []) = Return (0, 0)).
Proof.
  intros response. split.
  - eexists. split; [apply init_eager|].
    rewrite shape_total. unfold __len__, len. simpl.
    rewrite length_fmap. split; [|done].
    by destruct (topk_query_result response).
  - intros. apply shape_total.
Qed.

(** C3. Eager materialization yields one row per sub-response, in the order
    of the sub-responses, and row i is the ranked-match array of
    sub-response i as it stands: nothing is sorted or filtered. *)
Theorem C3_rows_verbatim :
  forall response,
    exists self,
      __init__ (RawResponse response) false false = Return self /\
      _array self = query_result_arrays <$> topk_query_result response /\
      length (_array self) = length (topk_query_result response) /\
      (forall i : nat,
          _array self !! i
          = query_result_arrays <$> (topk_query_result response !! i)).
Proof.
  intros response. eexists. split; [apply init_eager|]. simpl.
  split; [done|]. split; [by rewrite length_fmap|].
  intros i. by rewrite list_lookup_fmap.
Qed.

(** C4. On the result set materialized from N sub-responses, indexing at
    i with 0 ≤ i < N returns the ranked-match list of sub-response i, and
    indexing at i ≥ N raises IndexError. *)
Theorem C4_getitem_in_and_out_of_range :
  forall response self i,
    __init__ (RawResponse response) false false = Return self ->
    (0 <= i < len (topk_query_result response) ->
     exists sub,
       topk_query_result response !! Z.to_nat i = Some sub /\
       __getitem__ self i = Return (query_result_arrays sub)) /\
    (len (topk_query_result response) <= i ->
     __getitem__ self i = Raise IndexError).
Proof.
  intros response self i Hinit.
  rewrite init_eager in Hinit. injection Hinit as <-.
  unfold __getitem__. simpl. split; intros Hi.
  - destruct (lookup_lt_is_Some_2 (topk_query_result response) (Z.to_nat i))
      as [sub Hsub].
    { unfold len in Hi. lia. }
    exists sub. split; [done|].
    apply list_getitem_nonneg; [lia|].
    by rewrite list_lookup_fmap, Hsub.
  - apply list_getitem_too_large. unfold len in *.
    rewrite length_fmap. lia.
Qed.

(** C10. On a result set with N ≥ 1 rows, indexing at -k with 1 ≤ k ≤ N
    returns row N-k; a negative position fails, with IndexError, only
    below -N. *)
Theorem C10_getitem_negative :
  forall self k,
    1 <= k ->
    (k <= __len__ self ->
     exists row,
       _array self !! Z.to_nat (__len__ self - k) = Some row /\
       __getitem__ self (- k) = Return row) /\
    (__len__ self < k -> __getitem__ self (- k) = Raise IndexError).
Proof.
  intros self k Hk. unfold __getitem__, __len__. split; intros HN.
  - apply list_getitem_negative. lia.
  - by apply list_getitem_too_small.
Qed.

End Materialization.

Lemma C4_getitem_witness :
  __getitem__ Sample.eager 1 = Return [Sample.m 3 "0.2"] /\
  __getitem__ Sample.eager 2 = Raise IndexError.
Proof.
  split.
  - destruct (C4_getitem_in_and_out_of_range Sample.response Sample.eager 1
                eq_refl) as [[sub [Hsub ->]] _].
    + unfold len. simpl. lia.
    + vm_compute in Hsub. by injection Hsub as <-.
  - apply (C4_getitem_in_and_out_of_range Sample.response Sample.eager 2
             eq_refl).
    unfold len. simpl. lia.
Defined.

Lemma C10_getitem_negative_witness :
  __getitem__ Sample.eager (- 1) = Return [Sample.m 3 "0.2"] /\
  __getitem__ Sample.eager (- 3) = Raise IndexError.
Proof.
  split.
  - destruct (C10_getitem_negative Sample.eager 1) as [[row [Hrow ->]] _].
    + lia.
    + unfold __len__, len. simpl. lia.
    + vm_compute in Hrow. by injection Hrow as <-.
  - apply (C10_getitem_negative Sample.eager 3); [lia|].
    unfold __len__, len. simpl. lia.
Defined.

(** ** Delivery modes and [result] *)

Section Delivery.
Context {Dist : Type}.
Implicit Types (self : TopKQueryResult.t Dist) (future : Future Dist).

Lemma init_deferred (raw : raw_source Dist) async_ lazy_ :
  async_ || lazy_ = true ->
  __init__ raw async_ lazy_ = Return (mk raw async_ lazy_ []).
Proof. intros H. unfold __init__. by rewrite H. Qed.

Lemma delivery_mode_async self :
  delivery_mode self = Async <-> _async self = true.
Proof.
  unfold delivery_mode. destruct (_async self), (_lazy self); naive_solver.
Qed.

Lemma result_not_async self timeout :
  _async self = false -> result self timeout = Return self.
Proof. intros H. unfold result. by rewrite H. Qed.

Lemma result_async_ready self future timeout :
  _async self = true -> _raw self = RawFuture future ->
  ready_after future <= timeout ->
  result self timeout
  = __init__ (RawResponse (outcome future)) false (_lazy self).
Proof.
  intros Ha Hraw Hready. unfold result. rewrite Ha, Hraw. simpl.
  unfold Future_result. by rewrite bool_decide_eq_true_2 by lia.
Qed.


(** C2, as amended. For a result set in Async mode whose lazy flag is unset
    and whose raw future completes within the timeout, [result(timeout)]
    returns a new result set in Eager mode, the very one eager construction
    on the completed response produces; for a result set not in Async mode,
    [result(timeout)] returns the object itself. *)
Theorem C2_result_resolves :
  forall self timeout,
    (forall future,
        delivery_mode self = Async -> _lazy self = false ->
        _raw self = RawFuture future -> ready_after future <= timeout ->
        exists r,
          result self timeout = Return r /\
          delivery_mode r = Eager /\
          __init__ (RawResponse (outcome future)) false false = Return r) /\
    (delivery_mode self <> Async -> result self timeout = Return self).
Proof.
  intros self timeout. split.
  - intros future Hmode Hlazy Hraw Hready.
    apply delivery_mode_async in Hmode.
    rewrite (result_async_ready self future) by done.
    rewrite Hlazy, init_eager. eauto.
  - intros Hmode. apply result_not_async.
    destruct (_async self) eqn:Ha; [|done].
    destruct Hmode. by apply delivery_mode_async.
Qed.


(** What a call returns on a result set in Lazy mode built on [raw]. *)
Lemma invoke_lazy (str_dist : Dist -> string) (raw : raw_source Dist) c :
  invoke str_dist (mk raw false true []) c
  = (mk raw false true [],
     match c with
     | CallShape => Return (VShape (0, 0))
     | CallRaw => Return (VRaw raw)
     | CallResult _ => Return (VObject (mk raw false true []))
     | CallGetitem _ => Raise IndexError
     | CallIter => Return (VRows [])
     | CallLen => Return (VInt 0)
     | CallRepr => Return (VStr ("[" +:+ nl +:+ nl +:+ "]"))
     end).
Proof.
  destruct c; try reflexivity.
  unfold invoke, __getitem__. simpl. by rewrite list_getitem_nil.
Qed.

(** C9. A result set constructed in Lazy mode (lazy flag set, async flag
    unset) has no rows, and no sequence of calls changes that:
    [result(timeout)] returns the object itself, the length is 0, the shape
    is (0, 0), indexing raises IndexError at every position and iteration
    yields nothing. *)
Theorem C9_lazy_stays_empty :
  forall (str_dist : Dist -> string) (raw : raw_source Dist),
    exists self,
      __init__ raw false true = Return self /\
      delivery_mode self = Lazy /\
      _array self = [] /\
      forall cs,
        run str_dist self cs
        = (self,
           (fun c =>
              match c with
              | CallShape => Return (VShape (0, 0))
              | CallRaw => Return (VRaw raw)
              | CallResult _ => Return (VObject self)
              | CallGetitem _ => Raise IndexError
              | CallIter => Return (VRows [])
              | CallLen => Return (VInt 0)
              | CallRepr => Return (VStr ("[" +:+ nl +:+ nl +:+ "]"))
              end) <$> cs).
Proof.
  intros str_dist raw. exists (mk raw false true []).
  split; [by apply init_deferred|]. split; [done|]. split; [done|].
  induction cs as [|c cs IH]; [done|].
  cbn [run]. rewrite invoke_lazy, IH. reflexivity.
Qed.

End Delivery.

Lemma C2_result_resolves_witness :
  (exists r,
      result Sample.async 10 = Return r /\
      delivery_mode r = Eager /\
      __init__ (RawResponse Sample.response) false false = Return r) /\
  result Sample.eager 10 = Return Sample.eager.
Proof.
  split.
  - apply (proj1 (C2_result_resolves Sample.async 10) Sample.future);
      try reflexivity.
    simpl. lia.
  - apply (proj2 (C2_result_resolves Sample.eager 10)). discriminate.
Defined.

(** The claim C2 as it was stated fails when both flags are set: the future
    completes in time, and [result] returns a result set in Lazy mode
    without rows. *)
Lemma C2_counterexample :
  delivery_mode Sample.async_lazy = Async /\
  _raw Sample.async_lazy = RawFuture Sample.future /\
  ready_after Sample.future <= 10 /\
  ~ (exists r eager_,
        result Sample.async_lazy 10 = Return r /\
        delivery_mode r = Eager /\
        __init__ (RawResponse (outcome Sample.future)) false false
        = Return eager_ /\
        _array r = _array eager_).
Proof.
  split; [done|]. split; [done|]. split; [simpl; lia|].
  intros (r & eager_ & Hr & Hmode & _ & _).
  vm_compute in Hr. injection Hr as <-. discriminate Hmode.
Qed.


(** ** Rendering *)

Lemma string_app_assoc (s1 s2 s3 : string) :
  (s1 +:+ s2) +:+ s3 = s1 +:+ s2 +:+ s3.
Proof.
  induction s1 as [|a s1 IH]; [reflexivity|].
  exact (f_equal (String a) IH).
Qed.

Section Rendering.
Context {Dist : Type}.
Variable str_dist : Dist -> string.
Implicit Types (self : TopKQueryResult.t Dist) (row : list (QueryResult.t Dist)).

Lemma list_getitem_last row x :
  last row = Some x -> list_getitem row (- 1) = Return x.
Proof.
  intros Hlast. rewrite last_lookup in Hlast.
  assert (1 <= len row).
  { apply lookup_lt_Some in Hlast. unfold len. lia. }
  destruct (list_getitem_negative row 1) as (y & Hy & Hget); [lia|].
  replace (Z.to_nat (len row - 1)) with (pred (length row)) in Hy
    by (unfold len; lia).
  etrans; [exact Hget|]. congruence.
Qed.

(** The second loop of [__repr__], entered with the rows [pre] already
    rendered into [acc]. *)
Lemma repr_rows_loop self pre rows acc :
  _array self = pre ++ rows ->
  for_each
    (fun str_out_list i =>
       row ← __getitem__ self i;
       Return (str_out_list ++ [render_row str_dist row]))
    acc (seqZ (len pre) (len rows))
  = Return (acc ++ (render_row str_dist <$> rows)).
Proof.
  revert pre acc. induction rows as [|row rows IH]; intros pre acc Harr.
  - simpl. by rewrite app_nil_r.
  - rewrite seqZ_cons by (unfold len; simpl; lia).
    cbn [for_each].
    assert (Hrow : __getitem__ self (len pre) = Return row).
    { apply list_getitem_nonneg; [apply len_nonneg|].
      rewrite Harr. unfold len. rewrite Nat2Z.id.
      by apply list_lookup_middle. }
    rewrite Hrow. cbn [mbind exc_bind].
    replace (Z.succ (len pre)) with (len (pre ++ [row]))
      by (unfold len; rewrite length_app; simpl; lia).
    replace (Z.pred (len (row :: rows))) with (len rows)
      by (unfold len; simpl; lia).
    rewrite IH by (by rewrite <- app_assoc).
    by rewrite <- app_assoc.
Qed.

(** With at most 5 rows, every row is rendered in full. *)
Lemma repr_in_full self :
  __len__ self <= 5 ->
  __repr__ str_dist self = Return (render_all str_dist (_array self)).
Proof.
  intros Hlen. unfold __repr__.
  rewrite bool_decide_eq_false_2 by lia.
  unfold range, __len__.
  pose proof (repr_rows_loop self [] (_array self) [] eq_refl) as Hloop.
  change (len []) with 0 in Hloop.
  etrans; [exact (f_equal (fun m => s ← m; Return _) Hloop)|].
  reflexivity.
Qed.

(** With more than 5 rows, the first three rows are rendered, each cut to
    three matches, the marker and its last match, when each of the three
    has a last match. *)
Lemma repr_bounded self row1 row2 row3 rest x1 x2 x3 :
  _array self = row1 :: row2 :: row3 :: rest ->
  (3 <= length rest)%nat ->
  last row1 = Some x1 -> last row2 = Some x2 -> last row3 = Some x3 ->
  __repr__ str_dist self
  = Return ("[" +:+ nl
              +:+ (render_row_bounded str_dist row1 x1
                     +:+ render_row_bounded str_dist row2 x2
                     +:+ render_row_bounded str_dist row3 x3)
              +:+ spaces +:+ nl +:+ "]").
Proof.
  intros Harr Hrest H1 H2 H3. unfold __repr__, __len__, __getitem__slice.
  rewrite Harr.
  rewrite bool_decide_eq_true_2 by (unfold len; simpl; lia).
  rewrite (list_getslice_nonneg (row1 :: row2 :: row3 :: rest) 3) by lia.
  change (Z.to_nat 3) with 3%nat. cbn [take for_each].
  rewrite (list_getitem_last row1 x1) by done. cbn [mbind exc_bind].
  rewrite (list_getitem_last row2 x2) by done. cbn [mbind exc_bind].
  rewrite (list_getitem_last row3 x3) by done. cbn [mbind exc_bind].
  rewrite take_0. cbn [for_each mbind exc_bind].
  rewrite !list_getslice_nonneg by lia. change (Z.to_nat 3) with 3%nat.
  unfold render_row_bounded. rewrite !string_app_assoc. reflexivity.
Qed.

(** With more than 5 rows, a row without matches among the first three
    makes [__repr__] raise: [topk[-1]] is out of range. *)
Lemma repr_empty_first_row self rest :
  _array self = [] :: rest -> (5 <= length rest)%nat ->
  __repr__ str_dist self = Raise IndexError.
Proof.
  intros Harr Hrest. unfold __repr__, __len__, __getitem__slice.
  rewrite Harr.
  rewrite bool_decide_eq_true_2 by (unfold len; simpl; lia).
  rewrite (list_getslice_nonneg ([] :: rest) 3) by lia.
  change (Z.to_nat 3) with 3%nat. cbn [take for_each].
  by rewrite list_getitem_nil.
Qed.

End Rendering.

(** C6. The rendering is not produced for every result set: with six rows
    and no match in the first, [__repr__] raises IndexError where the
    specification promises the bounded rendering. *)
Theorem C6_repr_raises_without_matches :
  exists self,
    __init__ (RawResponse Sample.no_match) false false = Return self /\
    __len__ self = 6 /\
    __repr__ id self = Raise IndexError.
Proof.
  eexists. split; [apply init_eager|]. split; [reflexivity|].
  by apply (repr_empty_first_row id _ (replicate 5 [])).
Qed.

(** ** Range *)

Section RangeFacts.
Context {DateInput : Type}.
Variable parser_range_date : DateInput -> exc Range.date.
Implicit Types (s e : Range.date).

Lemma is_legal_date_range_true s e :
  Range.date_le s e -> Range.is_legal_date_range s e = true.
Proof.
  unfold Range.is_legal_date_range.
  intros [->|Hlt].
  - rewrite !Z.compare_refl. by apply bool_decide_eq_true_2.
  - destruct Hlt as [Hy|[Hy [Hm|[Hm Hd]]]].
    + by apply Z.compare_lt_iff in Hy as ->.
    + rewrite Hy, Z.compare_refl. by apply Z.compare_lt_iff in Hm as ->.
    + rewrite Hy, Hm, !Z.compare_refl. apply bool_decide_eq_true_2. lia.
Qed.

Lemma is_legal_date_range_false s e :
  Range.date_lt e s -> Range.is_legal_date_range s e = false.
Proof.
  unfold Range.is_legal_date_range.
  intros [Hy|[Hy [Hm|[Hm Hd]]]].
  - by apply Z.compare_gt_iff in Hy as ->.
  - rewrite Hy, Z.compare_refl. by apply Z.compare_gt_iff in Hm as ->.
  - rewrite Hy, Hm, !Z.compare_refl. apply bool_decide_eq_false_2. lia.
Qed.

(** The calendar order is total: the two cases of C7 cover every pair. *)
Lemma date_le_or_gt s e : Range.date_le s e \/ Range.date_lt e s.
Proof.
  destruct s as [y1 m1 d1], e as [y2 m2 d2].
  unfold Range.date_le, Range.date_lt. simpl.
  destruct (Z.lt_total y1 y2) as [?|[->|?]]; [auto..| |auto].
  destruct (Z.lt_total m1 m2) as [?|[->|?]]; [auto 6..| |auto 6].
  destruct (Z.lt_total d1 d2) as [?|[->|?]]; auto 8.
Qed.

(** C7. When the start date is not after the end date, construction
    succeeds and stores the two normalized dates; when the start date is
    after the end date, construction raises ParamError and yields no
    instance. *)
Theorem C7_range_init :
  forall (start_date end_date : DateInput) s e,
    parser_range_date start_date = Return s ->
    parser_range_date end_date = Return e ->
    (Range.date_le s e ->
     Range.__init__ parser_range_date start_date end_date
     = Return (Range.mk s e)) /\
    (Range.date_lt e s ->
     Range.__init__ parser_range_date start_date end_date
     = Raise (ParamError
                "The start-date should be smaller than or equal to end-date!")).
Proof.
  intros start_date end_date s e Hs He. unfold Range.__init__.
  rewrite Hs, He. cbn [mbind exc_bind]. split; intros Hord.
  - by rewrite is_legal_date_range_true.
  - by rewrite is_legal_date_range_false.
Qed.

End RangeFacts.

Lemma C7_range_init_witness :
  Range.__init__ Sample.parser_range_date Sample.july_1 Sample.july_2
  = Return (Range.mk Sample.july_1 Sample.july_2) /\
  Range.__init__ Sample.parser_range_date Sample.july_2 Sample.july_1
  = Raise (ParamError
             "The start-date should be smaller than or equal to end-date!").
Proof.
  split.
  - apply (C7_range_init Sample.parser_range_date
             Sample.july_1 Sample.july_2 Sample.july_1 Sample.july_2
             eq_refl eq_refl).
    right. right. simpl. lia.
  - apply (C7_range_init Sample.parser_range_date
             Sample.july_2 Sample.july_1 Sample.july_2 Sample.july_1
             eq_refl eq_refl).
    right. simpl. lia.
Defined.

(** ** IndexParam *)

Lemma IndexType_of_value v : IndexType.of_value (IndexType.value v) = Return v.
Proof. by destruct v. Qed.

(** C8, as amended. A call to the constructor of IndexParam whose table
    name is the empty string, with a valid index type (a member of
    IndexType other than INVALID, or the integer value of one) and any
    nlist, succeeds and stores the empty table name. *)
Theorem C8_empty_table_name_accepted :
  forall (str_index_type : IndexType.t -> string)
         (index_type nlist : pyobj) (v : IndexType.t),
    v <> IndexType.INVALID ->
    index_type = PyIndexType v \/ index_type = PyInt (IndexType.value v) ->
    IndexParam.__init__ str_index_type (PyStr "") index_type nlist
    = Return (IndexParam.mk "" v nlist).
Proof.
  intros str_index_type index_type nlist v Hv Hty.
  unfold IndexParam.__init__.
  destruct Hty as [->| ->].
  - cbn [mbind exc_bind]. by rewrite bool_decide_eq_false_2.
  - rewrite IndexType_of_value. cbn [fmap exc_fmap mbind exc_bind].
    by rewrite bool_decide_eq_false_2.
Qed.

Lemma C8_empty_table_name_accepted_witness :
  IndexParam.__init__ IndexType.name (PyStr "") (PyInt 2) (PyInt 16384)
  = Return (IndexParam.mk "" IndexType.IVFLAT (PyInt 16384)).
Proof.
  apply (C8_empty_table_name_accepted IndexType.name
           (PyInt 2) (PyInt 16384) IndexType.IVFLAT).
  - discriminate.
  - right. reflexivity.
Defined.

(** The claim C8 as it was stated fails: with the empty table name, the
    index type FLAT and nlist 16384, the constructor raises nothing. *)
Lemma C8_counterexample :
  IndexParam.__init__ IndexType.name
    (PyStr "") (PyIndexType IndexType.FLAT) (PyInt 16384)
  = Return (IndexParam.mk "" IndexType.FLAT (PyInt 16384)) /\
  ~ (exists msg,
        IndexParam.__init__ IndexType.name
          (PyStr "") (PyIndexType IndexType.FLAT) (PyInt 16384)
        = Raise (ParamError msg)).
Proof.
  split; [reflexivity|]. intros [msg Hmsg]. discriminate Hmsg.
Qed.

(** * Further properties of the code *)

(** ** Indexing, iteration and shape *)

Section Indexing.
Context {Dist : Type}.
Implicit Types (self : TopKQueryResult.t Dist).

(** Every outcome of [l[i]]: a value of the list inside [-len l, len l),
    [IndexError] outside, and nothing else. *)
Lemma list_getitem_cases {A : Type} (l : list A) (i : Z) :
  (- len l <= i < len l /\
   exists x, list_getitem l i = Return x /\
             l !! Z.to_nat (if bool_decide (i < 0) then i + len l else i)
             = Some x) \/
  ((i < - len l \/ len l <= i) /\ list_getitem l i = Raise IndexError).
Proof.
  pose proof (len_nonneg l) as Hlen.
  destruct (decide (i < - len l)) as [Hlow|Hlow].
  { right. split; [auto|]. replace i with (- - i) by lia.
    apply list_getitem_too_small. lia. }
  destruct (decide (len l <= i)) as [Hhigh|Hhigh].
  { right. split; [auto|]. by apply list_getitem_too_large. }
  left. split; [lia|]. case_bool_decide as Hneg.
  - destruct (list_getitem_negative l (- i)) as (x & Hx & Hget); [lia|].
    exists x. rewrite Z.opp_involutive in Hget. split; [done|].
    by replace (i + len l) with (len l - - i) by lia.
  - destruct (list_getitem_in_range l i) as (x & Hx & Hget); [lia|].
    by exists x.
Qed.

(** X1. [shape] never raises, although it indexes row 0: its row count is
    [len(self)], and its column count is 0 without rows and the length of
    [self[0]] otherwise. *)
Theorem X1_shape_agrees_with_len_and_first_row :
  forall self,
    exists column,
      shape self = Return (__len__ self, column) /\
      ((__len__ self = 0 /\ column = 0) \/
       (exists first,
           __getitem__ self 0 = Return first /\ column = len first)).
Proof.
  intros self. rewrite shape_total. unfold __len__, __getitem__.
  destruct (_array self) as [|first rows]; eexists; (split; [reflexivity|]).
  - by left.
  - right. exists first. split; [|done].
    by apply list_getitem_nonneg.
Qed.

(** X2. Indexing raises IndexError exactly when the position is below -N or
    at least N, N being the row count; at every other position it returns a
    row of the result set, and it raises nothing else. *)
Theorem X2_getitem_fails_exactly_out_of_range :
  forall self i,
    (__getitem__ self i = Raise IndexError <->
     i < - __len__ self \/ __len__ self <= i) /\
    (- __len__ self <= i < __len__ self ->
     exists row, __getitem__ self i = Return row /\ row ∈ _array self).
Proof.
  intros self i. unfold __getitem__, __len__.
  destruct (list_getitem_cases (_array self) i)
    as [(Hin & row & Hget & Hrow)|[Hout Hget]].
  - split.
    + rewrite Hget. split; [discriminate|lia].
    + intros _. exists row. split; [done|].
      by eapply list_elem_of_lookup_2.
  - split; [done|]. lia.
Qed.

(** X3. A negative position counts from the end: for -N ≤ i < 0, indexing
    at i is indexing at i + N. *)
Theorem X3_getitem_negative_wraps :
  forall self i,
    - __len__ self <= i < 0 ->
    __getitem__ self i = __getitem__ self (i + __len__ self).
Proof.
  intros self i Hi. unfold __getitem__, __len__ in *.
  destruct (list_getitem_cases (_array self) i)
    as [(_ & row & -> & Hrow)|[Hout _]]; [|lia].
  rewrite bool_decide_eq_true_2 in Hrow by lia.
  symmetry. apply list_getitem_nonneg; [lia|done].
Qed.

(** X4. Iteration and indexing agree: the iterator yields as many rows as
    [len(self)], and its n-th item is [row] exactly when [self[n]] returns
    [row]. *)
Theorem X4_iter_agrees_with_getitem :
  forall self,
    len (__iter__ self) = __len__ self /\
    forall (n : nat) row,
      __iter__ self !! n = Some row <->
      __getitem__ self (Z.of_nat n) = Return row.
Proof.
  intros self. split; [done|]. intros n row.
  unfold __iter__, __getitem__. split.
  - intros Hrow. apply list_getitem_nonneg; [lia|].
    by rewrite Nat2Z.id.
  - intros Hget.
    destruct (list_getitem_cases (_array self) (Z.of_nat n))
      as [(_ & row' & Hget' & Hrow)|[_ Hraise]]; [|congruence].
    rewrite bool_decide_eq_false_2, Nat2Z.id in Hrow by lia.
    congruence.
Qed.

End Indexing.

Lemma X2_getitem_fails_exactly_out_of_range_witness :
  (__getitem__ Sample.eager (- 3) = Raise IndexError <->
   - 3 < - __len__ Sample.eager \/ __len__ Sample.eager <= - 3) /\
  exists row,
    __getitem__ Sample.eager (- 2) = Return row /\
    row ∈ _array Sample.eager.
Proof.
  split.
  - apply (X2_getitem_fails_exactly_out_of_range Sample.eager (- 3)).
  - apply (X2_getitem_fails_exactly_out_of_range Sample.eager (- 2)).
    unfold __len__, len. simpl. lia.
Defined.

Lemma X3_getitem_negative_wraps_witness :
  __getitem__ Sample.eager (- 2) = __getitem__ Sample.eager (- 2 + 2).
Proof.
  apply (X3_getitem_negative_wraps Sample.eager (- 2)).
  unfold __len__, len. simpl. lia.
Defined.

Lemma X4_iter_agrees_with_getitem_witness :
  __getitem__ Sample.eager 1 = Return [Sample.m 3 "0.2"].
Proof.
  apply (proj2 (X4_iter_agrees_with_getitem Sample.eager) 1%nat).
  reflexivity.
Defined.

(** ** Construction and resolution *)

Section Resolution.
Context {Dist : Type}.
Implicit Types (self : TopKQueryResult.t Dist) (future : Future Dist).

(** X5. With the async flag set, construction does not read the raw source:
    it succeeds on every raw source, whatever the lazy flag, keeps the
    source for [raw], and the new result set has no rows: its length is 0,
    its shape (0, 0), and indexing raises IndexError at every position. *)
Theorem X5_async_construction_has_no_rows :
  forall (raw_source : raw_source Dist) (lazy_ : bool),
    exists self,
      __init__ raw_source true lazy_ = Return self /\
      raw self = raw_source /\
      delivery_mode self = Async /\
      __len__ self = 0 /\
      shape self = Return (0, 0) /\
      forall i, __getitem__ self i = Raise IndexError.
Proof.
  intros raw_source lazy_. exists (mk raw_source true lazy_ []).
  split; [by apply init_deferred|]. repeat (split; [done|]).
  intros i. apply list_getitem_nil.
Qed.

(** What [__init__] returns on a response with the async flag unset. *)
Lemma init_response_not_async (response : Response Dist) lazy_ :
  exists rows,
    __init__ (RawResponse response) false lazy_
    = Return (mk (RawResponse response) false lazy_ rows).
Proof.
  destruct lazy_.
  - exists []. by apply init_deferred.
  - eexists. apply init_eager.
Qed.

(** X6. The result set that [result] returns is never in Async mode, and
    [result] on it, with any timeout, returns that same result set:
    resolving twice is resolving once. *)
Theorem X6_result_returns_a_fixed_point :
  forall self timeout r,
    result self timeout = Return r ->
    delivery_mode r <> Async /\
    forall timeout', result r timeout' = Return r.
Proof.
  intros self timeout r Hr.
  assert (Ha : _async r = false).
  { unfold result in Hr. destruct (_async self) eqn:Hself.
    - destruct (raw_result (_raw self) timeout) as [response|e];
        [|discriminate].
      cbn [mbind exc_bind] in Hr.
      destruct (init_response_not_async response (_lazy self)) as [rows Hi].
      rewrite Hi in Hr. by injection Hr as <-.
    - by injection Hr as <-. }
  split.
  - intros Hmode. apply delivery_mode_async in Hmode. congruence.
  - intros timeout'. by apply result_not_async.
Qed.

(** X7. When both flags are set and the raw future completes within the
    timeout, [result] returns a result set in Lazy mode that wraps the
    completed response and has no rows, however many matches the response
    holds. *)
Theorem X7_result_keeps_the_lazy_flag :
  forall self future timeout,
    _async self = true -> _lazy self = true ->
    _raw self = RawFuture future ->
    ready_after future <= timeout ->
    result self timeout
    = Return (mk (RawResponse (outcome future)) false true []) /\
    delivery_mode (mk (RawResponse (outcome future)) false true []) = Lazy.
Proof.
  intros self future timeout Ha Hl Hraw Hready. split; [|done].
  rewrite (result_async_ready self future) by done.
  rewrite Hl. by apply init_deferred.
Qed.

(** X8. Resolving, then reading: for a result set in Async mode with the
    lazy flag unset whose future completes within the timeout, the result
    set [result] returns wraps the completed response, has one row per
    sub-response, and indexing it at n returns the matches of sub-response
    n. *)
Theorem X8_resolved_rows_are_the_responses :
  forall self future timeout,
    _async self = true -> _lazy self = false ->
    _raw self = RawFuture future ->
    ready_after future <= timeout ->
    exists r,
      result self timeout = Return r /\
      raw r = RawResponse (outcome future) /\
      __len__ r = len (topk_query_result (outcome future)) /\
      forall (n : nat) sub,
        topk_query_result (outcome future) !! n = Some sub ->
        __getitem__ r (Z.of_nat n) = Return (query_result_arrays sub).
Proof.
  intros self future timeout Ha Hl Hraw Hready.
  rewrite (result_async_ready self future) by done.
  rewrite Hl, init_eager. eexists. split; [reflexivity|].
  split; [done|]. split.
  - unfold __len__, len. simpl. by rewrite length_fmap.
  - intros n sub Hsub. unfold __getitem__. simpl.
    apply list_getitem_nonneg; [lia|].
    by rewrite Nat2Z.id, list_lookup_fmap, Hsub.
Qed.

End Resolution.

Lemma X6_result_returns_a_fixed_point_witness :
  delivery_mode Sample.eager <> Async /\
  forall timeout', result Sample.eager timeout' = Return Sample.eager.
Proof.
  apply (X6_result_returns_a_fixed_point Sample.async 10 Sample.eager).
  reflexivity.
Defined.

Lemma X7_result_keeps_the_lazy_flag_witness :
  result Sample.async_lazy 10
  = Return (mk (RawResponse Sample.response) false true []) /\
  delivery_mode (mk (RawResponse Sample.response) false true []) = Lazy.
Proof.
  apply (X7_result_keeps_the_lazy_flag Sample.async_lazy Sample.future 10);
    [reflexivity | reflexivity | reflexivity | simpl; lia].
Defined.

Lemma X8_resolved_rows_are_the_responses_witness :
  exists r,
    result Sample.async 10 = Return r /\
    raw r = RawResponse Sample.response /\
    __len__ r = len (topk_query_result Sample.response) /\
    forall (n : nat) sub,
      topk_query_result Sample.response !! n = Some sub ->
      __getitem__ r (Z.of_nat n) = Return (query_result_arrays sub).
Proof.
  apply (X8_resolved_rows_are_the_responses Sample.async Sample.future 10);
    [reflexivity | reflexivity | reflexivity | simpl; lia].
Defined.

(** ** The rendering of a result set *)

Section RenderingOutcomes.
Context {Dist : Type}.
Variable str_dist : Dist -> string.
Implicit Types (self : TopKQueryResult.t Dist) (row : list (QueryResult.t Dist)).

Lemma last_of_nonempty row : row <> [] -> exists x, last row = Some x.
Proof.
  intros Hrow. destruct (last row) as [x|] eqn:Hlast; [by exists x|].
  by apply last_None in Hlast.
Qed.

(** More than 5 rows: the first three rows and what follows them. *)
Lemma more_than_five_rows self :
  __len__ self > 5 ->
  exists row1 row2 row3 rest,
    _array self = row1 :: row2 :: row3 :: rest /\ (3 <= length rest)%nat.
Proof.
  unfold __len__, len. intros Hlen.
  destruct (_array self) as [|row1 [|row2 [|row3 rest]]];
    simpl in Hlen; [lia..|].
  exists row1, row2, row3, rest. split; [done|]. lia.
Qed.

(** With more than 5 rows, the loop stops at the first of the first three
    rows that has no match. *)
Lemma repr_empty_among_first_three self row1 row2 row3 rest :
  _array self = row1 :: row2 :: row3 :: rest ->
  (3 <= length rest)%nat ->
  row1 = [] \/ row2 = [] \/ row3 = [] ->
  __repr__ str_dist self = Raise IndexError.
Proof.
  intros Harr Hrest Hempty. unfold __repr__, __len__, __getitem__slice.
  rewrite Harr.
  rewrite bool_decide_eq_true_2 by (unfold len; simpl; lia).
  rewrite (list_getslice_nonneg (row1 :: row2 :: row3 :: rest) 3) by lia.
  change (Z.to_nat 3) with 3%nat. cbn [take for_each].
  destruct (decide (row1 = [])) as [->|Hrow1].
  { by rewrite list_getitem_nil. }
  destruct (last_of_nonempty row1 Hrow1) as [x1 Hx1].
  rewrite (list_getitem_last row1 x1) by done. cbn [mbind exc_bind].
  destruct (decide (row2 = [])) as [->|Hrow2].
  { by rewrite list_getitem_nil. }
  destruct (last_of_nonempty row2 Hrow2) as [x2 Hx2].
  rewrite (list_getitem_last row2 x2) by done. cbn [mbind exc_bind].
  destruct (decide (row3 = [])) as [->|Hrow3].
  { by rewrite list_getitem_nil. }
  by destruct Hempty as [?|[?|?]].
Qed.

(** X9. With at most 5 rows, [__repr__] raises nothing, whatever the rows
    hold, and renders every row in full: the rows between brackets,
    separated by a comma and a line feed, each row its matches formatted
    as (id:<id>, distance:<distance>). *)
Theorem X9_repr_renders_small_sets_in_full :
  forall self,
    __len__ self <= 5 ->
    __repr__ str_dist self = Return (render_all str_dist (_array self)).
Proof. intros self Hlen. by apply repr_in_full. Qed.

(** X10. With more than 5 rows of which the first three have a match each,
    [__repr__] renders those three rows only, each cut to its first three
    matches, the marker and its last match, followed by two lines of
    dots. *)
Theorem X10_repr_renders_large_sets_bounded :
  forall self row1 row2 row3 rest x1 x2 x3,
    _array self = row1 :: row2 :: row3 :: rest ->
    (3 <= length rest)%nat ->
    last row1 = Some x1 -> last row2 = Some x2 -> last row3 = Some x3 ->
    __repr__ str_dist self
    = Return ("[" +:+ nl
                +:+ (render_row_bounded str_dist row1 x1
                       +:+ render_row_bounded str_dist row2 x2
                       +:+ render_row_bounded str_dist row3 x3)
                +:+ spaces +:+ nl +:+ "]").
Proof.
  intros self row1 row2 row3 rest x1 x2 x3 Harr Hrest H1 H2 H3.
  by apply (repr_bounded str_dist self row1 row2 row3 rest).
Qed.

(** X11. [__repr__] raises exactly when the result set has more than 5 rows
    and one of its first three rows has no match, and what it raises then
    is IndexError; in every other case it returns a string. *)
Theorem X11_repr_raises_exactly_on_an_empty_leading_row :
  forall self,
    (__len__ self > 5 -> [] ∈ take 3 (_array self) ->
     __repr__ str_dist self = Raise IndexError) /\
    (__len__ self <= 5 \/ [] ∉ take 3 (_array self) ->
     exists s, __repr__ str_dist self = Return s).
Proof.
  intros self. split.
  - intros Hlen Hempty.
    destruct (more_than_five_rows self Hlen)
      as (row1 & row2 & row3 & rest & Harr & Hrest).
    rewrite Harr in Hempty. cbn [take] in Hempty.
    apply (repr_empty_among_first_three self row1 row2 row3 rest);
      [done..|].
    rewrite !elem_of_cons in Hempty.
    destruct Hempty as [?|[?|[?|Hnil]]]; auto.
    rewrite take_0 in Hnil. by apply elem_of_nil in Hnil.
  - intros Hcase.
    destruct (decide (__len__ self <= 5)) as [Hsmall|Hlarge].
    { eexists. by apply repr_in_full. }
    destruct Hcase as [?|Hrows]; [lia|].
    destruct (more_than_five_rows self)
      as (row1 & row2 & row3 & rest & Harr & Hrest); [lia|].
    rewrite Harr in Hrows. cbn [take] in Hrows.
    rewrite !not_elem_of_cons in Hrows.
    destruct Hrows as (H1 & H2 & H3 & _).
    destruct (last_of_nonempty row1) as [x1 Hx1]; [done|].
    destruct (last_of_nonempty row2) as [x2 Hx2]; [done|].
    destruct (last_of_nonempty row3) as [x3 Hx3]; [done|].
    eexists. by eapply repr_bounded.
Qed.

(** X12. The rendering of a result set with more than 5 rows depends on its
    first three rows only: two such result sets with the same first three
    rows have the same [__repr__], whatever their other rows and however
    many there are. *)
Theorem X12_repr_reads_three_rows_of_a_large_set :
  forall self other,
    __len__ self > 5 -> __len__ other > 5 ->
    take 3 (_array self) = take 3 (_array other) ->
    __repr__ str_dist self = __repr__ str_dist other.
Proof.
  intros self other Hself Hother Hrows.
  unfold __repr__, __getitem__slice.
  rewrite !bool_decide_eq_true_2 by done.
  rewrite (list_getslice_nonneg (_array self) 3) by lia.
  rewrite (list_getslice_nonneg (_array other) 3) by lia.
  change (Z.to_nat 3) with 3%nat. by rewrite Hrows.
Qed.

End RenderingOutcomes.

Lemma X9_repr_renders_small_sets_in_full_witness :
  __repr__ id Sample.eager = Return (render_all id (_array Sample.eager)).
Proof.
  apply (X9_repr_renders_small_sets_in_full id Sample.eager).
  unfold __len__, len. simpl. lia.
Defined.

Lemma X10_repr_renders_large_sets_bounded_witness :
  __repr__ id
    (mk (RawResponse Sample.six) false false
       (query_result_arrays <$> topk_query_result Sample.six))
  = Return ("[" +:+ nl
              +:+ (render_row_bounded id
                     [Sample.m 1 "0.1"; Sample.m 2 "0.2"; Sample.m 3 "0.3";
                      Sample.m 4 "0.4"] (Sample.m 4 "0.4")
                     +:+ render_row_bounded id [Sample.m 5 "0.5"]
                           (Sample.m 5 "0.5")
                     +:+ render_row_bounded id
                           [Sample.m 6 "0.6"; Sample.m 7 "0.7"]
                           (Sample.m 7 "0.7"))
              +:+ spaces +:+ nl +:+ "]").
Proof.
  apply (X10_repr_renders_large_sets_bounded id _ _ _ _ [[]; []; []]);
    [reflexivity | simpl; lia | reflexivity..].
Defined.

Lemma X11_repr_raises_exactly_on_an_empty_leading_row_witness :
  __repr__ id
    (mk (RawResponse Sample.no_match) false false (replicate 6 []))
  = Raise IndexError /\
  exists s, __repr__ id Sample.eager = Return s.
Proof.
  split.
  - apply (X11_repr_raises_exactly_on_an_empty_leading_row id
             (mk (RawResponse Sample.no_match) false false (replicate 6 []))).
    + unfold __len__, len. simpl. lia.
    + simpl. apply list_elem_of_here.
  - apply (X11_repr_raises_exactly_on_an_empty_leading_row id Sample.eager).
    left. unfold __len__, len. simpl. lia.
Defined.

Lemma X12_repr_reads_three_rows_of_a_large_set_witness :
  __repr__ id
    (mk (RawResponse Sample.six) false false
       (query_result_arrays <$> topk_query_result Sample.six))
  = __repr__ id
      (mk (RawResponse Sample.six) false false
         (take 3 (query_result_arrays <$> topk_query_result Sample.six)
            ++ replicate 7 [Sample.m 9 "0.9"])).
Proof.
  apply (X12_repr_reads_three_rows_of_a_large_set id);
    [unfold __len__, len; simpl; lia .. | reflexivity].
Defined.

(** ** The constructor of IndexParam *)

Lemma IndexType_of_value_inv n v :
  IndexType.of_value n = Return v -> n = IndexType.value v.
Proof.
  unfold IndexType.of_value. intros Hv.
  repeat case_match; simplify_eq; reflexivity.
Qed.

Lemma IndexType_of_value_out_of_range n :
  n < 0 \/ 4 < n -> IndexType.of_value n = Raise ValueError.
Proof.
  unfold IndexType.of_value. intros Hn.
  repeat case_match; (reflexivity || lia).
Qed.

(** X13. Whenever the constructor succeeds, the index type it stores is a
    member of IndexType other than INVALID, and it is the member passed in,
    or the member whose value is the integer passed in; the table name
    stored is [str] of the argument, which was not None; nlist is stored as
    it came. *)
Theorem X13_index_param_stores_a_valid_index_type :
  forall (str_index_type : IndexType.t -> string)
         table_name index_type nlist p,
    IndexParam.__init__ str_index_type table_name index_type nlist
    = Return p ->
    IndexParam._index_type p <> IndexType.INVALID /\
    (index_type = PyIndexType (IndexParam._index_type p) \/
     index_type = PyInt (IndexType.value (IndexParam._index_type p))) /\
    table_name <> PyNone /\
    IndexParam._table_name p = str str_index_type table_name /\
    IndexParam._nlist p = nlist.
Proof.
  intros str_index_type table_name index_type nlist p Hp.
  assert (Hname : table_name <> PyNone).
  { intros ->. discriminate Hp. }
  assert (Hbody :
    (index_type ← match index_type with
                  | PyInt n => PyIndexType <$> IndexType.of_value n
                  | _ => Return index_type
                  end;
     match index_type with
     | PyIndexType v =>
         if bool_decide (v = IndexType.INVALID) then
           Raise (ParamError
             "Illegal index_type, should be IndexType but not IndexType.INVALID")
         else Return (IndexParam.mk (str str_index_type table_name) v nlist)
     | _ =>
         Raise (ParamError
           "Illegal index_type, should be IndexType but not IndexType.INVALID")
     end) = Return p).
  { by destruct table_name. }
  clear Hp. destruct index_type as [|s|n|v]; try discriminate Hbody.
  - destruct (IndexType.of_value n) as [v|e] eqn:Hv; [|discriminate].
    cbn [fmap exc_fmap mbind exc_bind] in Hbody.
    case_bool_decide as Hinv; [discriminate|].
    injection Hbody as <-. simpl.
    apply IndexType_of_value_inv in Hv as ->. auto.
  - cbn [mbind exc_bind] in Hbody.
    case_bool_decide as Hinv; [discriminate|].
    injection Hbody as <-. simpl. auto.
Qed.

Lemma X13_index_param_stores_a_valid_index_type_witness :
  IndexType.MIX_NSG <> IndexType.INVALID /\
  (PyInt 4 = PyIndexType IndexType.MIX_NSG \/
   PyInt 4 = PyInt (IndexType.value IndexType.MIX_NSG)) /\
  PyInt 7 <> PyNone /\
  "7" = str IndexType.name (PyInt 7) /\
  PyInt 16384 = PyInt 16384.
Proof.
  apply (X13_index_param_stores_a_valid_index_type IndexType.name
           (PyInt 7) (PyInt 4) (PyInt 16384)
           (IndexParam.mk "7" IndexType.MIX_NSG (PyInt 16384))).
  reflexivity.
Defined.

(** X14. Passing the integer value of a member of IndexType is the same as
    passing the member itself: the two calls return or raise the same. *)
Theorem X14_index_param_accepts_the_value_of_a_member :
  forall (str_index_type : IndexType.t -> string)
         table_name (v : IndexType.t) nlist,
    IndexParam.__init__ str_index_type
      table_name (PyInt (IndexType.value v)) nlist
    = IndexParam.__init__ str_index_type table_name (PyIndexType v) nlist.
Proof.
  intros str_index_type table_name v nlist. unfold IndexParam.__init__.
  rewrite IndexType_of_value. by destruct table_name.
Qed.

(** X15. What the constructor rejects, and in what order: a table name of
    None raises ParamError whatever the index type; with another table
    name, an integer that is the value of no member raises ValueError, not
    ParamError; and INVALID, its value 0, None and a string as the index
    type raise ParamError. *)
Theorem X15_index_param_rejections :
  forall (str_index_type : IndexType.t -> string)
         table_name index_type nlist,
    IndexParam.__init__ str_index_type PyNone index_type nlist
    = Raise (ParamError "Table name can't be None") /\
    (table_name <> PyNone ->
     (forall n, n < 0 \/ 4 < n ->
        IndexParam.__init__ str_index_type table_name (PyInt n) nlist
        = Raise ValueError) /\
     (index_type = PyIndexType IndexType.INVALID \/ index_type = PyInt 0 \/
      index_type = PyNone \/ (exists s, index_type = PyStr s) ->
      IndexParam.__init__ str_index_type table_name index_type nlist
      = Raise (ParamError
          "Illegal index_type, should be IndexType but not IndexType.INVALID"))).
Proof.
  intros str_index_type table_name index_type nlist. split; [done|].
  intros Hname. split.
  - intros n Hn. unfold IndexParam.__init__.
    rewrite IndexType_of_value_out_of_range by done.
    by destruct table_name.
  - intros [->|[->|[->|[s ->]]]]; by destruct table_name.
Qed.

Lemma X15_index_param_rejections_witness :
  IndexParam.__init__ IndexType.name (PyStr "t") (PyInt 5) (PyInt 16384)
  = Raise ValueError /\
  IndexParam.__init__ IndexType.name (PyStr "t") (PyInt 0) (PyInt 16384)
  = Raise (ParamError
      "Illegal index_type, should be IndexType but not IndexType.INVALID").
Proof.
  destruct (X15_index_param_rejections IndexType.name
              (PyStr "t") (PyInt 0) (PyInt 16384))
    as [_ Hrest].
  destruct Hrest as [Hvalue Hparam]; [discriminate|].
  split.
  - apply Hvalue. lia.
  - apply Hparam. auto.
Defined.

(** ** The constructor of Range *)

Section RangeOutcomes.
Context {DateInput : Type}.
Variable parser_range_date : DateInput -> exc Range.date.

(** X16. What [parser_range_date] raises on a date leaves the constructor
    as it is, the start date's first: when the start date does not parse,
    the end date is not looked at, and the order of the dates is tested
    only when both have parsed. *)
Theorem X16_range_parse_errors_come_first :
  forall (start_date end_date : DateInput),
    (forall e,
        parser_range_date start_date = Raise e ->
        Range.__init__ parser_range_date start_date end_date = Raise e) /\
    (forall s e,
        parser_range_date start_date = Return s ->
        parser_range_date end_date = Raise e ->
        Range.__init__ parser_range_date start_date end_date = Raise e).
Proof.
  intros start_date end_date. unfold Range.__init__. split.
  - intros e ->. reflexivity.
  - intros s e -> ->. reflexivity.
Qed.

(** X17. Every Range that the constructor returns holds the two normalized
    dates, and its start date is not after its end date. *)
Theorem X17_range_is_ordered :
  forall (start_date end_date : DateInput) r,
    Range.__init__ parser_range_date start_date end_date = Return r ->
    parser_range_date start_date = Return (Range.start_date r) /\
    parser_range_date end_date = Return (Range.end_date r) /\
    Range.date_le (Range.start_date r) (Range.end_date r).
Proof.
  intros start_date end_date r. unfold Range.__init__.
  destruct (parser_range_date start_date) as [s|?]; [|discriminate].
  destruct (parser_range_date end_date) as [e|?]; [|discriminate].
  cbn [mbind exc_bind].
  destruct (Range.is_legal_date_range s e) eqn:Hlegal; [|discriminate].
  intros Hr. injection Hr as <-. simpl. split; [done|]. split; [done|].
  destruct (date_le_or_gt s e) as [Hle|Hgt]; [done|].
  apply is_legal_date_range_false in Hgt. congruence.
Qed.

End RangeOutcomes.

Lemma X16_range_parse_errors_come_first_witness :
  Range.__init__
    (fun d : option Range.date =>
       match d with
       | Some d => Return d
       | None => Raise (ParamError "Date should be YY-MM-DD format string")
       end)
    (Some Sample.july_2) None
  = Raise (ParamError "Date should be YY-MM-DD format string").
Proof.
  eapply (proj2 (X16_range_parse_errors_come_first _ _ _)); reflexivity.
Defined.

Lemma X17_range_is_ordered_witness :
  Sample.parser_range_date Sample.july_1 = Return Sample.july_1 /\
  Sample.parser_range_date Sample.july_2 = Return Sample.july_2 /\
  Range.date_le Sample.july_1 Sample.july_2.
Proof.
  apply (X17_range_is_ordered Sample.parser_range_date
           Sample.july_1 Sample.july_2
           (Range.mk Sample.july_1 Sample.july_2)).
  reflexivity.
Defined.
